(** * OpenFloor: typed records and their dictionary projection

    A shallow embedding of the typed record model of the [openfloor]
    package ([dialog_event.py], [manifest.py], [envelope.py],
    [json_serializable.py]): the dataclass constructors with their
    [__post_init__] validation, the [__iter__] projections consumed by
    [dict(...)], and the [from_dict] reconstructions.

    Python is dynamically typed: a field can hold any value, whatever its
    annotation says.  Fields are therefore modelled as untyped [value]s, and
    well-typedness is a predicate stated where a theorem needs it. *)

From Stdlib Require Import String List ZArith QArith Bool Lia.
From stdpp Require Import base strings gmap.
Import ListNotations.
Local Open Scope string_scope.
Local Open Scope list_scope.
Set Warnings "-register-all".

(** ** Exceptions and results *)

(** The exceptions the modelled code can raise, with their messages. *)
Inductive exn : Type :=
| ValueError (msg : string)
| TypeError (msg : string)
| AttributeError (msg : string).

(** The outcome of a call: a returned value or a raised exception. *)
Inductive result (A : Type) : Type :=
| Ok (a : A)
| Raise (e : exn).
Arguments Ok {A} a.
Arguments Raise {A} e.

Definition rbind {A B : Type} (r : result A) (k : A -> result B) : result B :=
  match r with
  | Ok a => k a
  | Raise e => Raise e
  end.

Definition is_ok {A : Type} (r : result A) : bool :=
  match r with Ok _ => true | Raise _ => false end.

Notation "x <- c1 ;; c2" := (rbind c1 (fun x => c2))
  (at level 200, c1 at level 99, right associativity).

(** [[f(x) for x in l]] for a call [f] that may raise. *)
Definition mapR {A B : Type} (f : A -> result B) : list A -> result (list B) :=
  fix go (l : list A) : result (list B) :=
    match l with
    | [] => Ok []
    | x :: l' => y <- f x ;; ys <- go l' ;; Ok (y :: ys)
    end.

(** ** The outside world: the clock and the UUID generator

    [datetime.now()] and [uuid.uuid4()] are the only effects of the modelled
    code.  The world holds what successive calls will return and how many
    calls were made. *)
Record world : Type := mkWorld {
  now_src : nat -> string;   (* the n-th result of datetime.now().isoformat() *)
  now_calls : nat;
  uuid_src : nat -> string;  (* the n-th result of str(uuid.uuid4()) *)
  uuid_calls : nat
}.

(** Computations that may read the clock, draw a UUID, or raise. *)
Definition M (A : Type) : Type := world -> result (A * world).

Definition ret {A : Type} (a : A) : M A := fun w => Ok (a, w).

Definition raise {A : Type} (e : exn) : M A := fun _ => Raise e.

Definition mbind {A B : Type} (m : M A) (k : A -> M B) : M B :=
  fun w => match m w with
           | Ok (a, w') => k a w'
           | Raise e => Raise e
           end.

Definition lift {A : Type} (r : result A) : M A :=
  fun w => match r with
           | Ok a => Ok (a, w)
           | Raise e => Raise e
           end.

Notation "x <~ c1 ;; c2" := (mbind c1 (fun x => c2))
  (at level 200, c1 at level 99, right associativity).

Fixpoint mapM {A B : Type} (f : A -> M B) (l : list A) : M (list B) :=
  match l with
  | [] => ret []
  | x :: l' => y <~ f x ;; ys <~ mapM f l' ;; ret (y :: ys)
  end.

(** [datetime.now().isoformat()] *)
Definition datetime_now_isoformat : M string :=
  fun w => Ok (now_src w (now_calls w),
               mkWorld (now_src w) (S (now_calls w)) (uuid_src w) (uuid_calls w)).

(** [str(uuid.uuid4())] *)
Definition uuid4 : M string :=
  fun w => Ok (uuid_src w (uuid_calls w),
               mkWorld (now_src w) (now_calls w) (uuid_src w) (S (uuid_calls w))).

(** The record classes of the typed model. *)
Inductive cls : Type :=
| Span | Token | Feature | DialogEvent
| Identification | SupportedLayers | Capability | Manifest
| Schema | Conversant | Conversation | Sender | To | Event | Envelope.

(** [datetime.datetime] with its [isoformat] method and its [fromisoformat]
    class method, which belong to Python's library. *)
Class Datetime : Type := {
  datetime : Type;
  isoformat : datetime -> string;
  fromisoformat : string -> option datetime
}.

Section Model.

Context {D : Datetime}.

(** ** Values *)

(** Python values: the JSON values, datetimes, and instances of the record
    classes, each instance holding its fields in declaration order. *)
Inductive value : Type :=
| VNone
| VBool (b : bool)
| VInt (n : Z)
| VFloat (q : Q)
| VStr (s : string)
| VDatetime (t : datetime)
| VList (l : list value)
| VDict (d : list (string * value))
| VSpan (startTime startOffset endTime endOffset : value)
| VToken (value_ valueUrl span confidence links : value)
| VFeature (mimeType tokens alternates lang encoding tokenSchema : value)
| VDialogEvent (id speakerUri span features previousId context : value)
| VIdentification (speakerUri serviceUrl organization conversationalName
                   department role synopsis : value)
| VSupportedLayers (input output : value)
| VCapability (keyphrases descriptions languages supportedLayers : value)
| VManifest (identification capabilities : value)
| VSchema (version url : value)
| VConversant (identification persistentState : value)
| VConversation (id conversants : value)
| VSender (speakerUri serviceUrl : value)
| VTo (speakerUri serviceUrl private : value)
| VParameters (_data : list (string * value))
| VEvent (eventType to reason parameters : value)
| VEnvelope (conversation sender schema events : value).

(** A Python [dict] with string keys: its items in insertion order. *)
Abbreviation dict := (list (string * value)).

(** [v is not None] *)
Definition is_not_none (v : value) : bool :=
  match v with VNone => false | _ => true end.

(** [v is None] *)
Definition is_none (v : value) : bool := negb (is_not_none v).

(** ** Dictionaries *)

(** [d.get(k)] *)
Fixpoint dict_get (k : string) (d : dict) : option value :=
  match d with
  | [] => None
  | (k', v) :: d' => if String.eqb k k' then Some v else dict_get k d'
  end.

(** [k in d] *)
Definition dict_has (k : string) (d : dict) : bool :=
  match dict_get k d with Some _ => true | None => false end.

(** [d[k] = v]: an existing key keeps its position, a new key goes last. *)
Fixpoint dict_set (k : string) (v : value) (d : dict) : dict :=
  match d with
  | [] => [(k, v)]
  | (k', v') :: d' =>
      if String.eqb k k' then (k, v) :: d' else (k', v') :: dict_set k v d'
  end.

(** [dict(pairs)]: the pairs are inserted one after the other. *)
Definition py_dict (pairs : list (string * value)) : dict :=
  fold_left (fun d kv => dict_set (fst kv) (snd kv) d) pairs [].

Definition keys (d : dict) : list string := map fst d.

(** A generator's conditional [yield k, v]. *)
Definition yield_if (c : bool) (k : string) (v : value) : list (string * value) :=
  if c then [(k, v)] else [].

(** ** Built-in operations on values *)

Definition nonempty {A : Type} (l : list A) : bool :=
  match l with [] => false | _ :: _ => true end.

(** [bool(v)], as in [if v:].  The records of [dialog_event.py] define
    neither [__bool__] nor [__len__] and are true.  The dataclasses derived
    from [JsonSerializableDict] inherit its [__len__], which reads
    [self._data]; the generated [__init__] never sets it, so asking for
    their truth value raises.  [Parameters] sets [_data] in its own
    [__init__]. *)
Definition truthy (v : value) : result bool :=
  match v with
  | VNone => Ok false
  | VBool b => Ok b
  | VInt n => Ok (negb (Z.eqb n 0))
  | VFloat q => Ok (negb (Qeq_bool q 0))
  | VStr s => Ok (negb (String.eqb s ""))
  | VDatetime _ => Ok true
  | VList l => Ok (nonempty l)
  | VDict d => Ok (nonempty d)
  | VSpan _ _ _ _ | VToken _ _ _ _ _ | VFeature _ _ _ _ _ _
  | VDialogEvent _ _ _ _ _ _ => Ok true
  | VParameters d => Ok (nonempty d)
  | _ => Raise (AttributeError "object has no attribute '_data'")
  end.

(** [0 <= v <= 1] *)
Definition between_0_and_1 (v : value) : result bool :=
  match v with
  | VBool _ => Ok true
  | VInt n => Ok ((0 <=? n)%Z && (n <=? 1)%Z)
  | VFloat q => Ok (Qle_bool 0 q && Qle_bool q 1)
  | _ => Raise (TypeError "'<=' not supported between these instances")
  end.

(** [v in ["ISO-8859-1", "UTF-8"]]: only a string equals a string. *)
Definition in_encodings (v : value) : bool :=
  match v with
  | VStr s => String.eqb s "ISO-8859-1" || String.eqb s "UTF-8"
  | _ => false
  end.

(** ** Keyword arguments of a dataclass constructor *)

(** Unpacking [data] into keyword arguments needs a mapping. *)
Definition as_kwargs (data : value) : result dict :=
  match data with
  | VDict d => Ok d
  | _ => Raise (TypeError "argument after ** must be a mapping")
  end.

(** The generated [__init__] refuses a keyword that names no field. *)
Definition check_keywords (fields : list string) (kw : dict) : result unit :=
  match find (fun k => negb (existsb (String.eqb k) fields)) (keys kw) with
  | Some k => Raise (TypeError
                ("__init__() got an unexpected keyword argument " ++ k)%string)
  | None => Ok tt
  end.

(** A field without default: the argument is required. *)
Definition arg_required (kw : dict) (k : string) : result value :=
  match dict_get k kw with
  | Some v => Ok v
  | None => Raise (TypeError
               ("__init__() missing 1 required positional argument: " ++ k)%string)
  end.

(** A field with a default value. *)
Definition arg_default (kw : dict) (k : string) (dflt : value) : value :=
  match dict_get k kw with
  | Some v => v
  | None => dflt
  end.

(** A field with a [default_factory] that has an effect: the factory is
    called only when the argument is omitted. *)
Definition arg_factory (kw : dict) (k : string) (factory : M value) : M value :=
  match dict_get k kw with
  | Some v => ret v
  | None => factory
  end.

(** ** [dialog_event.py]: constructors and validation *)

Definition Span_fields : list string :=
  ["startTime"; "startOffset"; "endTime"; "endOffset"].

(** [Span.__post_init__] *)
Definition Span_post_init (startTime startOffset endTime endOffset : value)
  : result unit :=
  if is_not_none startTime && is_not_none startOffset then
    Raise (ValueError "Cannot specify both startTime and startOffset")
  else if is_not_none endTime && is_not_none endOffset then
    Raise (ValueError "Cannot specify both endTime and endOffset")
  else if is_none startTime && is_none startOffset then
    Raise (ValueError "Must specify either startTime or startOffset")
  else Ok tt.

(** The constructor [Span] called with the keyword arguments [kw].  The
    field [startTime] has the default factory
    [lambda: datetime.now().isoformat()], called when the argument is
    omitted; the other fields default to [None]. *)
Definition Span_init (kw : dict) : M value :=
  _ <~ lift (check_keywords Span_fields kw) ;;
  startTime <~ arg_factory kw "startTime"
                 (s <~ datetime_now_isoformat ;; ret (VStr s)) ;;
  let startOffset := arg_default kw "startOffset" VNone in
  let endTime := arg_default kw "endTime" VNone in
  let endOffset := arg_default kw "endOffset" VNone in
  _ <~ lift (Span_post_init startTime startOffset endTime endOffset) ;;
  ret (VSpan startTime startOffset endTime endOffset).

Definition Token_fields : list string :=
  ["value"; "valueUrl"; "span"; "confidence"; "links"].

(** [Token.__post_init__] *)
Definition Token_post_init (value_ valueUrl confidence : value) : result unit :=
  if is_none value_ && is_none valueUrl then
    Raise (ValueError "Must specify either value or valueUrl")
  else if is_not_none value_ && is_not_none valueUrl then
    Raise (ValueError "Cannot specify both value and valueUrl")
  else if is_not_none confidence then
    inside <- between_0_and_1 confidence ;;
    if negb inside then Raise (ValueError "Confidence must be between 0 and 1")
    else Ok tt
  else Ok tt.

(** The constructor [Token]. *)
Definition Token_init (kw : dict) : result value :=
  _ <- check_keywords Token_fields kw ;;
  let value_ := arg_default kw "value" VNone in
  let valueUrl := arg_default kw "valueUrl" VNone in
  let span := arg_default kw "span" VNone in
  let confidence := arg_default kw "confidence" VNone in
  let links := arg_default kw "links" (VList []) in
  _ <- Token_post_init value_ valueUrl confidence ;;
  Ok (VToken value_ valueUrl span confidence links).

Definition Feature_fields : list string :=
  ["mimeType"; "tokens"; "alternates"; "lang"; "encoding"; "tokenSchema"].

(** [Feature.__post_init__] *)
Definition Feature_post_init (encoding : value) : result unit :=
  if is_not_none encoding && negb (in_encodings encoding) then
    Raise (ValueError "Encoding must be either 'ISO-8859-1' or 'UTF-8'")
  else Ok tt.

(** The constructor [Feature]. *)
Definition Feature_init (kw : dict) : result value :=
  _ <- check_keywords Feature_fields kw ;;
  let mimeType := arg_default kw "mimeType" (VStr "text/plain") in
  let tokens := arg_default kw "tokens" (VList []) in
  let alternates := arg_default kw "alternates" (VList []) in
  let lang := arg_default kw "lang" VNone in
  let encoding := arg_default kw "encoding" VNone in
  let tokenSchema := arg_default kw "tokenSchema" VNone in
  _ <- Feature_post_init encoding ;;
  Ok (VFeature mimeType tokens alternates lang encoding tokenSchema).

Definition DialogEvent_fields : list string :=
  ["id"; "speakerUri"; "span"; "features"; "previousId"; "context"].

(** [DialogEvent.__post_init__] *)
Definition DialogEvent_post_init (features : value) : result unit :=
  some <- truthy features ;;
  if negb some then
    Raise (ValueError "Dialog event must contain at least one feature")
  else Ok tt.

(** The constructor [DialogEvent]. *)
Definition DialogEvent_init (kw : dict) : result value :=
  _ <- check_keywords DialogEvent_fields kw ;;
  id <- arg_required kw "id" ;;
  speakerUri <- arg_required kw "speakerUri" ;;
  span <- arg_required kw "span" ;;
  let features := arg_default kw "features" (VDict []) in
  let previousId := arg_default kw "previousId" VNone in
  let context := arg_default kw "context" VNone in
  _ <- DialogEvent_post_init features ;;
  Ok (VDialogEvent id speakerUri span features previousId context).

(** ** [manifest.py]: constructors and validation

    [envelope.py] repeats the classes [SupportedLayers], [Capability] and
    [Manifest] word for word; the package exports those of [manifest.py]. *)

Definition Identification_fields : list string :=
  ["speakerUri"; "serviceUrl"; "organization"; "conversationalName";
   "department"; "role"; "synopsis"].

(** [Identification.__post_init__] *)
Definition Identification_post_init (speakerUri serviceUrl : value) : result unit :=
  if is_none speakerUri then
    Raise (ValueError
      "speakerUri is required to create an instance of the Identification class")
  else if is_none serviceUrl then
    Raise (ValueError
      "serviceUrl is required to create an instance of the Identification class")
  else Ok tt.

(** The constructor [Identification]. *)
Definition Identification_init (kw : dict) : result value :=
  _ <- check_keywords Identification_fields kw ;;
  speakerUri <- arg_required kw "speakerUri" ;;
  serviceUrl <- arg_required kw "serviceUrl" ;;
  let organization := arg_default kw "organization" VNone in
  let conversationalName := arg_default kw "conversationalName" VNone in
  let department := arg_default kw "department" VNone in
  let role := arg_default kw "role" VNone in
  let synopsis := arg_default kw "synopsis" VNone in
  _ <- Identification_post_init speakerUri serviceUrl ;;
  Ok (VIdentification speakerUri serviceUrl organization conversationalName
        department role synopsis).

Definition SupportedLayers_fields : list string := ["input"; "output"].

(** The constructor [SupportedLayers]; both default factories return
    [["text"]]. *)
Definition SupportedLayers_init (kw : dict) : result value :=
  _ <- check_keywords SupportedLayers_fields kw ;;
  let input := arg_default kw "input" (VList [VStr "text"]) in
  let output := arg_default kw "output" (VList [VStr "text"]) in
  Ok (VSupportedLayers input output).

Definition Capability_fields : list string :=
  ["keyphrases"; "descriptions"; "languages"; "supportedLayers"].

(** [Capability.__post_init__]: the value of [self.supportedLayers] after it. *)
Definition Capability_post_init (supportedLayers : value) : result value :=
  if is_none supportedLayers then SupportedLayers_init []
  else Ok supportedLayers.

(** The constructor [Capability]. *)
Definition Capability_init (kw : dict) : result value :=
  _ <- check_keywords Capability_fields kw ;;
  keyphrases <- arg_required kw "keyphrases" ;;
  descriptions <- arg_required kw "descriptions" ;;
  let languages := arg_default kw "languages" VNone in
  let supportedLayers := arg_default kw "supportedLayers" VNone in
  supportedLayers <- Capability_post_init supportedLayers ;;
  Ok (VCapability keyphrases descriptions languages supportedLayers).

Definition Manifest_fields : list string := ["identification"; "capabilities"].

(** The constructor [Manifest]. *)
Definition Manifest_init (kw : dict) : result value :=
  _ <- check_keywords Manifest_fields kw ;;
  identification <- arg_required kw "identification" ;;
  capabilities <- arg_required kw "capabilities" ;;
  Ok (VManifest identification capabilities).

(** ** [envelope.py]: constructors and validation *)

Definition Schema_fields : list string := ["version"; "url"].

(** [Schema.__post_init__]: the value of [self.version] after it. *)
Definition Schema_post_init (version : value) : value :=
  if is_none version then VStr "1.0.0" else version.

(** The constructor [Schema]. *)
Definition Schema_init (kw : dict) : result value :=
  _ <- check_keywords Schema_fields kw ;;
  let version := arg_default kw "version" (VStr "1.0.0") in
  let url := arg_default kw "url" VNone in
  let version := Schema_post_init version in
  Ok (VSchema version url).

Definition Conversant_fields : list string := ["identification"; "persistentState"].

(** [Conversant.__post_init__] *)
Definition Conversant_post_init (identification : value) : result unit :=
  if is_none identification then
    Raise (ValueError "identification is required for the Conversant")
  else Ok tt.

(** The constructor [Conversant]. *)
Definition Conversant_init (kw : dict) : result value :=
  _ <- check_keywords Conversant_fields kw ;;
  identification <- arg_required kw "identification" ;;
  let persistentState := arg_default kw "persistentState" (VDict []) in
  _ <- Conversant_post_init identification ;;
  Ok (VConversant identification persistentState).

Definition Conversation_fields : list string := ["id"; "conversants"].

(** [Conversation.__post_init__]: the value of [self.id] after it. *)
Definition Conversation_post_init (id : value) : M value :=
  if is_none id then
    u <~ uuid4 ;; ret (VStr ("conv:" ++ u)%string)
  else ret id.

(** The constructor [Conversation]. *)
Definition Conversation_init (kw : dict) : M value :=
  _ <~ lift (check_keywords Conversation_fields kw) ;;
  let id := arg_default kw "id" VNone in
  let conversants := arg_default kw "conversants" (VList []) in
  id <~ Conversation_post_init id ;;
  ret (VConversation id conversants).

Definition Sender_fields : list string := ["speakerUri"; "serviceUrl"].

(** The constructor [Sender]; the class has no [__post_init__]. *)
Definition Sender_init (kw : dict) : result value :=
  _ <- check_keywords Sender_fields kw ;;
  speakerUri <- arg_required kw "speakerUri" ;;
  let serviceUrl := arg_default kw "serviceUrl" VNone in
  Ok (VSender speakerUri serviceUrl).

Definition To_fields : list string := ["speakerUri"; "serviceUrl"; "private"].

(** [To.__post_init__] *)
Definition To_post_init (speakerUri serviceUrl : value) : result unit :=
  if is_none speakerUri && is_none serviceUrl then
    Raise (ValueError "Must specify either speakerUri or serviceUrl")
  else Ok tt.

(** The constructor [To]. *)
Definition To_init (kw : dict) : result value :=
  _ <- check_keywords To_fields kw ;;
  let speakerUri := arg_default kw "speakerUri" VNone in
  let serviceUrl := arg_default kw "serviceUrl" VNone in
  let private := arg_default kw "private" (VBool false) in
  _ <- To_post_init speakerUri serviceUrl ;;
  Ok (VTo speakerUri serviceUrl private).

(** [Parameters(d)]: [_data] starts empty and is updated with [d]. *)
Definition Parameters_init (d : dict) : value := VParameters (py_dict d).

Definition Event_fields : list string := ["eventType"; "to"; "reason"; "parameters"].

(** [Event.__post_init__]: the value of [self.parameters] after it. *)
Definition Event_post_init (parameters : value) : value :=
  match parameters with
  | VDict d => Parameters_init d
  | _ => parameters
  end.

(** The constructor [Event]; [parameters] has the default factory
    [Parameters]. *)
Definition Event_init (kw : dict) : result value :=
  _ <- check_keywords Event_fields kw ;;
  eventType <- arg_required kw "eventType" ;;
  let to := arg_default kw "to" VNone in
  let reason := arg_default kw "reason" VNone in
  let parameters := arg_default kw "parameters" (Parameters_init []) in
  let parameters := Event_post_init parameters in
  Ok (VEvent eventType to reason parameters).

Definition Envelope_fields : list string :=
  ["conversation"; "sender"; "schema"; "events"].

(** The constructor [Envelope]; [schema] has the default factory [Schema]
    and [events] the default factory [list]. *)
Definition Envelope_init (kw : dict) : result value :=
  _ <- check_keywords Envelope_fields kw ;;
  conversation <- arg_required kw "conversation" ;;
  sender <- arg_required kw "sender" ;;
  schema <- match dict_get "schema" kw with
            | Some v => Ok v
            | None => Schema_init []
            end ;;
  let events := arg_default kw "events" (VList []) in
  Ok (VEnvelope conversation sender schema events).

(** ** Projection: [__iter__] and [dict(...)]

    Each [__iter__] is a generator of (key, value) pairs; [dict(x)] consumes
    it.  A generator that calls [dict] on a field takes that operation as
    the argument [dict_of]; [to_dict] below ties the knot. *)

Abbreviation pairs := (list (string * value)).

(** [dict(s)] for a string [s]: every item of a non-empty string is a string
    of length 1, which is no (key, value) pair. *)
Definition dict_of_str (s : string) : result dict :=
  if String.eqb s "" then Ok []
  else Raise (ValueError
    "dictionary update sequence element #0 has length 1; 2 is required").

(** An item of the sequence given to [dict(...)].  Modelled for items that
    are a list [[key, value]] with a string key; the model has no other
    keys, and raises for any other item. *)
Definition as_pair (item : value) : result (string * value) :=
  match item with
  | VList [VStr k; v] => Ok (k, v)
  | _ => Raise (TypeError "cannot convert dictionary update sequence element")
  end.

(** [[dict(x) for x in v]].  The field [v] is a list by its annotation.
    Iterating a string gives its characters and iterating a dict its keys;
    [None], numbers and datetimes are not iterable.  Iterating a record
    instance gives tuples, which the model does not have: it raises there. *)
Definition dicts_of (dict_of : value -> result dict) (v : value) : result value :=
  match v with
  | VList l => ds <- mapR dict_of l ;; Ok (VList (map VDict ds))
  | VStr s => d <- dict_of_str s ;; Ok (VList [])
  | VDict d => ds <- mapR dict_of_str (keys d) ;; Ok (VList (map VDict ds))
  | _ => Raise (TypeError "object is not iterable")
  end.

(** [Span.__iter__] *)
Definition Span_iter (startTime startOffset endTime endOffset : value)
  : result pairs :=
  e <- match endTime with
       | VNone => Ok []
       | VDatetime t => Ok [("endTime", VStr (isoformat t))]
       | _ => Raise (AttributeError "object has no attribute 'isoformat'")
       end ;;
  Ok (yield_if (is_not_none startTime) "startTime" startTime
      ++ yield_if (is_not_none startOffset) "startOffset" startOffset
      ++ e
      ++ yield_if (is_not_none endOffset) "endOffset" endOffset).

(** [Token.__iter__] *)
Definition Token_iter (dict_of : value -> result dict)
    (value_ valueUrl span confidence links : value) : result pairs :=
  sp <- (if is_not_none span
         then d <- dict_of span ;; Ok [("span", VDict d)]
         else Ok []) ;;
  some <- truthy links ;;
  Ok (yield_if (is_not_none value_) "value" value_
      ++ yield_if (is_not_none valueUrl) "valueUrl" valueUrl
      ++ sp
      ++ yield_if (is_not_none confidence) "confidence" confidence
      ++ yield_if some "links" links).

(** [Feature.__iter__] *)
Definition Feature_iter (dict_of : value -> result dict)
    (mimeType tokens alternates lang encoding tokenSchema : value)
  : result pairs :=
  toks <- dicts_of dict_of tokens ;;
  some <- truthy alternates ;;
  alts <- (if some then
             match alternates with
             | VList ls => as_ <- mapR (dicts_of dict_of) ls ;;
                           Ok [("alternates", VList as_)]
             | _ => Raise (TypeError "object is not iterable")
             end
           else Ok []) ;;
  Ok ([("mimeType", mimeType); ("tokens", toks)]
      ++ alts
      ++ yield_if (is_not_none lang) "lang" lang
      ++ yield_if (is_not_none encoding) "encoding" encoding
      ++ yield_if (is_not_none tokenSchema) "tokenSchema" tokenSchema).

(** [DialogEvent.__iter__] *)
Definition DialogEvent_iter (dict_of : value -> result dict)
    (id speakerUri span features previousId context : value) : result pairs :=
  sp <- dict_of span ;;
  fs <- match features with
        | VDict fs =>
            mapR (fun nf => d <- dict_of (snd nf) ;; Ok (fst nf, VDict d)) fs
        | _ => Raise (AttributeError "object has no attribute 'items'")
        end ;;
  Ok ([("id", id); ("speakerUri", speakerUri); ("span", VDict sp);
       ("features", VDict (py_dict fs))]
      ++ yield_if (is_not_none previousId) "previousId" previousId
      ++ yield_if (is_not_none context) "context" context).

(** [Identification.__iter__] *)
Definition Identification_iter
    (speakerUri serviceUrl organization conversationalName department role
     synopsis : value) : result pairs :=
  Ok ([("speakerUri", speakerUri); ("serviceUrl", serviceUrl)]
      ++ yield_if (is_not_none organization) "organization" organization
      ++ yield_if (is_not_none conversationalName) "conversationalName"
           conversationalName
      ++ yield_if (is_not_none department) "department" department
      ++ yield_if (is_not_none role) "role" role
      ++ yield_if (is_not_none synopsis) "synopsis" synopsis).

(** [SupportedLayers.__iter__] *)
Definition SupportedLayers_iter (input output : value) : result pairs :=
  Ok [("input", input); ("output", output)].

(** [Capability.__iter__] *)
Definition Capability_iter (dict_of : value -> result dict)
    (keyphrases descriptions languages supportedLayers : value) : result pairs :=
  sl <- (if is_not_none supportedLayers
         then d <- dict_of supportedLayers ;; Ok [("supportedLayers", VDict d)]
         else Ok []) ;;
  Ok ([("keyphrases", keyphrases); ("descriptions", descriptions)]
      ++ yield_if (is_not_none languages) "languages" languages
      ++ sl).

(** [Manifest.__iter__] *)
Definition Manifest_iter (dict_of : value -> result dict)
    (identification capabilities : value) : result pairs :=
  idn <- dict_of identification ;;
  caps <- dicts_of dict_of capabilities ;;
  Ok [("identification", VDict idn); ("capabilities", caps)].

(** [Schema.__iter__] *)
Definition Schema_iter (version url : value) : result pairs :=
  Ok ([("version", version)] ++ yield_if (is_not_none url) "url" url).

(** [Conversant.__iter__] *)
Definition Conversant_iter (dict_of : value -> result dict)
    (identification persistentState : value) : result pairs :=
  idn <- dict_of identification ;;
  some <- truthy persistentState ;;
  Ok ([("identification", VDict idn)]
      ++ yield_if some "persistentState" persistentState).

(** [Conversation.__iter__] *)
Definition Conversation_iter (dict_of : value -> result dict)
    (id conversants : value) : result pairs :=
  some <- truthy conversants ;;
  cs <- (if some then c <- dicts_of dict_of conversants ;; Ok [("conversants", c)]
         else Ok []) ;;
  Ok ([("id", id)] ++ cs).

(** [Sender.__iter__] *)
Definition Sender_iter (speakerUri serviceUrl : value) : result pairs :=
  Ok ([("speakerUri", speakerUri)]
      ++ yield_if (is_not_none serviceUrl) "serviceUrl" serviceUrl).

(** [To.__iter__] *)
Definition To_iter (speakerUri serviceUrl private : value) : result pairs :=
  some <- truthy private ;;
  Ok (yield_if (is_not_none speakerUri) "speakerUri" speakerUri
      ++ yield_if (is_not_none serviceUrl) "serviceUrl" serviceUrl
      ++ yield_if some "private" private).

(** [Event.__iter__] *)
Definition Event_iter (dict_of : value -> result dict)
    (eventType to reason parameters : value) : result pairs :=
  t <- (if is_not_none to
        then d <- dict_of to ;; Ok [("to", VDict d)]
        else Ok []) ;;
  some <- truthy parameters ;;
  ps <- (if some then d <- dict_of parameters ;; Ok [("parameters", VDict d)]
         else Ok []) ;;
  Ok ([("eventType", eventType)]
      ++ t
      ++ yield_if (is_not_none reason) "reason" reason
      ++ ps).

(** [Envelope.__iter__] *)
Definition Envelope_iter (dict_of : value -> result dict)
    (conversation sender schema events : value) : result pairs :=
  sch <- dict_of schema ;;
  conv <- dict_of conversation ;;
  snd_ <- dict_of sender ;;
  some <- truthy events ;;
  evs <- (if some then e <- dicts_of dict_of events ;; Ok [("events", e)]
          else Ok []) ;;
  Ok ([("schema", VDict sch); ("conversation", VDict conv);
       ("sender", VDict snd_)]
      ++ evs).

(** [dict(v)].  A dict is copied; a record instance is iterated (none of
    the classes has a [keys] method, so [dict] takes the pairs of
    [__iter__]); [Parameters] yields the items of its [_data]. *)
Fixpoint to_dict (v : value) : result dict :=
  match v with
  | VDict d => Ok d
  | VStr s => dict_of_str s
  | VList l => ps <- mapR as_pair l ;; Ok (py_dict ps)
  | VNone | VBool _ | VInt _ | VFloat _ | VDatetime _ =>
      Raise (TypeError "object is not iterable")
  | VSpan a b c d => ps <- Span_iter a b c d ;; Ok (py_dict ps)
  | VToken a b c d e => ps <- Token_iter to_dict a b c d e ;; Ok (py_dict ps)
  | VFeature a b c d e f =>
      ps <- Feature_iter to_dict a b c d e f ;; Ok (py_dict ps)
  | VDialogEvent a b c d e f =>
      ps <- DialogEvent_iter to_dict a b c d e f ;; Ok (py_dict ps)
  | VIdentification a b c d e f g =>
      ps <- Identification_iter a b c d e f g ;; Ok (py_dict ps)
  | VSupportedLayers a b => ps <- SupportedLayers_iter a b ;; Ok (py_dict ps)
  | VCapability a b c d =>
      ps <- Capability_iter to_dict a b c d ;; Ok (py_dict ps)
  | VManifest a b => ps <- Manifest_iter to_dict a b ;; Ok (py_dict ps)
  | VSchema a b => ps <- Schema_iter a b ;; Ok (py_dict ps)
  | VConversant a b => ps <- Conversant_iter to_dict a b ;; Ok (py_dict ps)
  | VConversation a b => ps <- Conversation_iter to_dict a b ;; Ok (py_dict ps)
  | VSender a b => ps <- Sender_iter a b ;; Ok (py_dict ps)
  | VTo a b c => ps <- To_iter a b c ;; Ok (py_dict ps)
  | VParameters d => Ok (py_dict d)
  | VEvent a b c d => ps <- Event_iter to_dict a b c d ;; Ok (py_dict ps)
  | VEnvelope a b c d => ps <- Envelope_iter to_dict a b c d ;; Ok (py_dict ps)
  end.

(** ** Reconstruction: [from_dict]

    Every [from_dict] tests [k in data], reads and assigns [data[k]], and
    finally unpacks [data] into keyword arguments.  When [data] is no dict
    one of these steps raises, whatever the class: a [TypeError] for every
    JSON value and for datetimes, which is what [as_kwargs] returns; for a
    record instance the exception can be of another class.  The assignment
    [data[k] = ...] changes the caller's dict in place; the functions below
    return the reconstructed record only. *)

(** [if k in data: data[k] = f(data[k])] *)
Definition update_if_present (k : string) (f : value -> result value)
    (d : dict) : result dict :=
  match dict_get k d with
  | Some v => v' <- f v ;; Ok (dict_set k v' d)
  | None => Ok d
  end.

(** The same when [f] may read the clock or draw a UUID. *)
Definition update_if_presentM (k : string) (f : value -> M value)
    (d : dict) : M dict :=
  match dict_get k d with
  | Some v => v' <~ f v ;; ret (dict_set k v' d)
  | None => ret d
  end.

Fixpoint chars (s : string) : list value :=
  match s with
  | EmptyString => []
  | String c s' => VStr (String c EmptyString) :: chars s'
  end.

(** The items of [for x in v].  Iterating a record instance gives tuples, on
    which every [from_dict] raises; the model raises at the iteration.  An
    empty [Parameters] yields nothing. *)
Definition py_iter (v : value) : result (list value) :=
  match v with
  | VList l => Ok l
  | VStr s => Ok (chars s)
  | VDict d => Ok (map VStr (keys d))
  | VParameters [] => Ok []
  | _ => Raise (TypeError "object is not iterable")
  end.

(** [[f(x) for x in v]] *)
Definition list_from (f : value -> result value) (v : value) : result value :=
  items <- py_iter v ;;
  l <- mapR f items ;;
  Ok (VList l).

Definition list_fromM (f : value -> M value) (v : value) : M value :=
  items <~ lift (py_iter v) ;;
  l <~ mapM f items ;;
  ret (VList l).

(** [Span.from_dict]: a string under [endTime] is parsed by
    [datetime.fromisoformat], which raises [ValueError] on a string it does
    not accept. *)
Definition Span_from_dict (data : value) : M value :=
  d <~ lift (as_kwargs data) ;;
  d <~ lift (match dict_get "endTime" d with
             | Some (VStr s) =>
                 match fromisoformat s with
                 | Some t => Ok (dict_set "endTime" (VDatetime t) d)
                 | None => Raise (ValueError "Invalid isoformat string")
                 end
             | _ => Ok d
             end) ;;
  Span_init d.

(** [Token.from_dict] *)
Definition Token_from_dict (data : value) : M value :=
  d <~ lift (as_kwargs data) ;;
  d <~ update_if_presentM "span" Span_from_dict d ;;
  lift (Token_init d).

(** [Feature.from_dict] *)
Definition Feature_from_dict (data : value) : M value :=
  d <~ lift (as_kwargs data) ;;
  d <~ update_if_presentM "tokens" (list_fromM Token_from_dict) d ;;
  d <~ update_if_presentM "alternates"
         (list_fromM (list_fromM Token_from_dict)) d ;;
  lift (Feature_init d).

(** [{name: Feature.from_dict(feature)
      for name, feature in v.items()}]: only a dict has [items]. *)
Definition features_from (v : value) : M value :=
  match v with
  | VDict fs =>
      l <~ mapM (fun nf => f <~ Feature_from_dict (snd nf) ;; ret (fst nf, f)) fs ;;
      ret (VDict (py_dict l))
  | _ => raise (AttributeError "object has no attribute 'items'")
  end.

(** [DialogEvent.from_dict] *)
Definition DialogEvent_from_dict (data : value) : M value :=
  d <~ lift (as_kwargs data) ;;
  d <~ update_if_presentM "span" Span_from_dict d ;;
  d <~ update_if_presentM "features" features_from d ;;
  lift (DialogEvent_init d).

(** [Identification.from_dict] *)
Definition Identification_from_dict (data : value) : result value :=
  d <- as_kwargs data ;;
  Identification_init d.

(** [SupportedLayers.from_dict] *)
Definition SupportedLayers_from_dict (data : value) : result value :=
  d <- as_kwargs data ;;
  SupportedLayers_init d.

(** [Capability.from_dict] *)
Definition Capability_from_dict (data : value) : result value :=
  d <- as_kwargs data ;;
  d <- update_if_present "supportedLayers" SupportedLayers_from_dict d ;;
  Capability_init d.

(** [Manifest.from_dict] *)
Definition Manifest_from_dict (data : value) : result value :=
  d <- as_kwargs data ;;
  d <- update_if_present "identification" Identification_from_dict d ;;
  d <- update_if_present "capabilities" (list_from Capability_from_dict) d ;;
  Manifest_init d.

(** [Schema.from_dict] *)
Definition Schema_from_dict (data : value) : result value :=
  d <- as_kwargs data ;;
  Schema_init d.

(** [Conversant.from_dict] *)
Definition Conversant_from_dict (data : value) : result value :=
  d <- as_kwargs data ;;
  d <- update_if_present "identification" Identification_from_dict d ;;
  Conversant_init d.

(** [Conversation.from_dict] *)
Definition Conversation_from_dict (data : value) : M value :=
  d <~ lift (as_kwargs data) ;;
  d <~ lift (update_if_present "conversants" (list_from Conversant_from_dict) d) ;;
  Conversation_init d.

(** [Sender.from_dict] *)
Definition Sender_from_dict (data : value) : result value :=
  d <- as_kwargs data ;;
  Sender_init d.

(** [To.from_dict] *)
Definition To_from_dict (data : value) : result value :=
  d <- as_kwargs data ;;
  To_init d.

(** [Event.from_dict] *)
Definition Event_from_dict (data : value) : result value :=
  d <- as_kwargs data ;;
  d <- update_if_present "to" To_from_dict d ;;
  let d := match dict_get "parameters" d with
           | Some (VDict ps) => dict_set "parameters" (Parameters_init ps) d
           | _ => d
           end in
  Event_init d.

(** [Envelope.from_dict] *)
Definition Envelope_from_dict (data : value) : M value :=
  d <~ lift (as_kwargs data) ;;
  d <~ lift (update_if_present "schema" Schema_from_dict d) ;;
  d <~ update_if_presentM "conversation" Conversation_from_dict d ;;
  d <~ lift (update_if_present "sender" Sender_from_dict d) ;;
  d <~ lift (update_if_present "events" (list_from Event_from_dict) d) ;;
  lift (Envelope_init d).

(** Class-method dispatch: [c.from_dict(data)]. *)
Definition from_dict (c : cls) (data : value) : M value :=
  match c with
  | Span => Span_from_dict data
  | Token => Token_from_dict data
  | Feature => Feature_from_dict data
  | DialogEvent => DialogEvent_from_dict data
  | Identification => lift (Identification_from_dict data)
  | SupportedLayers => lift (SupportedLayers_from_dict data)
  | Capability => lift (Capability_from_dict data)
  | Manifest => lift (Manifest_from_dict data)
  | Schema => lift (Schema_from_dict data)
  | Conversant => lift (Conversant_from_dict data)
  | Conversation => Conversation_from_dict data
  | Sender => lift (Sender_from_dict data)
  | To => lift (To_from_dict data)
  | Event => lift (Event_from_dict data)
  | Envelope => Envelope_from_dict data
  end.


(** ** [json_serializable.py]: [split_kwargs]

    The function builds and returns dicts and the caller reads them by key,
    so they are finite maps here, and the set of field names is a finite
    set.  The class is seen through [cls.__dataclass_fields__]: [None] when
    it has no such attribute, else the names of its fields. *)
Definition split_kwargs (dataclass_fields : option (list string))
    (kwargs : gmap string value) : gmap string value * gmap string value :=
  let defined_fields : gset string :=
    match dataclass_fields with
    | Some names => list_to_set names
    | None => ∅
    end in
  let defined_kwargs : gmap string value := gset_to_gmap VNone defined_fields in
  let defined_kwargs :=
    filter (fun kv => kv.1 ∈ defined_fields) kwargs ∪ defined_kwargs in
  let undefined_kwargs := filter (fun kv => kv.1 ∉ defined_fields) kwargs in
  (defined_kwargs, undefined_kwargs).

(** ** How a keyword argument was passed *)

(** The argument [k] was passed with a value other than [None]. *)
Definition given (k : string) (kw : dict) : bool :=
  match dict_get k kw with
  | Some v => is_not_none v
  | None => false
  end.

(** The argument [k] was passed as [None]. *)
Definition passed_none (k : string) (kw : dict) : bool :=
  match dict_get k kw with
  | Some v => is_none v
  | None => false
  end.

(** ** Notions used in the statements *)

(** A number between 0 and 1; [True] and [False] are the integers 1 and 0. *)
Definition in_unit_interval (c : value) : Prop :=
  match c with
  | VFloat q => (0 <= q)%Q /\ (q <= 1)%Q
  | VInt n => (0 <= n <= 1)%Z
  | VBool _ => True
  | _ => False
  end.

Definition is_number (c : value) : bool :=
  match c with
  | VFloat _ | VInt _ | VBool _ => true
  | _ => false
  end.






(** ** Valid instances

    An instance is valid when its fields hold values of their annotated
    types and the checks of [__post_init__] pass.  With [timed] set, every
    [Span] in the instance must moreover have a [startTime]. *)

Definition is_str (v : value) : bool :=
  match v with VStr _ => true | _ => false end.

Definition is_bool (v : value) : bool :=
  match v with VBool _ => true | _ => false end.

Definition is_datetime (v : value) : bool :=
  match v with VDatetime _ => true | _ => false end.

Definition is_float (v : value) : bool :=
  match v with VFloat _ | VInt _ => true | _ => false end.

(** [Optional[T]] *)
Definition optional (p : value -> bool) (v : value) : bool :=
  match v with VNone => true | _ => p v end.

(** [List[T]] *)
Definition list_of (p : value -> bool) (v : value) : bool :=
  match v with VList l => forallb p l | _ => false end.

(** The keys of a dict are distinct. *)
Fixpoint distinct (l : list string) : bool :=
  match l with
  | [] => true
  | k :: l' => negb (existsb (String.eqb k) l') && distinct l'
  end.

(** [Dict[str, T]] *)
Definition dict_of (p : value -> bool) (v : value) : bool :=
  match v with
  | VDict d => distinct (keys d) && forallb (fun kv => p (snd kv)) d
  | _ => false
  end.

Definition anything (v : value) : bool := true.

Definition valid_Span (timed : bool) (x : value) : bool :=
  match x with
  | VSpan startTime startOffset endTime endOffset =>
      optional is_str startTime && optional is_str startOffset
      && optional is_datetime endTime && optional is_str endOffset
      && is_ok (Span_post_init startTime startOffset endTime endOffset)
      && (negb timed || is_not_none startTime)
  | _ => false
  end.

Definition valid_Token (timed : bool) (x : value) : bool :=
  match x with
  | VToken value_ valueUrl span confidence links =>
      optional is_str valueUrl && optional (valid_Span timed) span
      && optional is_float confidence && list_of is_str links
      && is_ok (Token_post_init value_ valueUrl confidence)
  | _ => false
  end.

Definition valid_Feature (timed : bool) (x : value) : bool :=
  match x with
  | VFeature mimeType tokens alternates lang encoding tokenSchema =>
      is_str mimeType && list_of (valid_Token timed) tokens
      && list_of (list_of (valid_Token timed)) alternates
      && optional is_str lang && optional is_str encoding
      && optional is_str tokenSchema
      && is_ok (Feature_post_init encoding)
  | _ => false
  end.

Definition valid_DialogEvent (timed : bool) (x : value) : bool :=
  match x with
  | VDialogEvent id speakerUri span features previousId context =>
      is_str id && is_str speakerUri && valid_Span timed span
      && dict_of (valid_Feature timed) features
      && optional is_str previousId && optional is_str context
      && is_ok (DialogEvent_post_init features)
  | _ => false
  end.

Definition valid_Identification (x : value) : bool :=
  match x with
  | VIdentification speakerUri serviceUrl organization conversationalName
      department role synopsis =>
      is_str speakerUri && is_str serviceUrl && optional is_str organization
      && optional is_str conversationalName && optional is_str department
      && optional is_str role && optional is_str synopsis
  | _ => false
  end.

Definition valid_SupportedLayers (x : value) : bool :=
  match x with
  | VSupportedLayers input output => list_of is_str input && list_of is_str output
  | _ => false
  end.

Definition valid_Capability (x : value) : bool :=
  match x with
  | VCapability keyphrases descriptions languages supportedLayers =>
      list_of is_str keyphrases && list_of is_str descriptions
      && optional (list_of is_str) languages
      && valid_SupportedLayers supportedLayers
  | _ => false
  end.

Definition valid_Manifest (x : value) : bool :=
  match x with
  | VManifest identification capabilities =>
      valid_Identification identification
      && list_of valid_Capability capabilities
  | _ => false
  end.

Definition valid_Schema (x : value) : bool :=
  match x with
  | VSchema version url => is_str version && optional is_str url
  | _ => false
  end.

Definition valid_Conversant (x : value) : bool :=
  match x with
  | VConversant identification persistentState =>
      valid_Identification identification && dict_of anything persistentState
  | _ => false
  end.

Definition valid_Conversation (x : value) : bool :=
  match x with
  | VConversation id conversants =>
      is_str id && list_of valid_Conversant conversants
  | _ => false
  end.

Definition valid_Sender (x : value) : bool :=
  match x with
  | VSender speakerUri serviceUrl => is_str speakerUri && optional is_str serviceUrl
  | _ => false
  end.

Definition valid_To (x : value) : bool :=
  match x with
  | VTo speakerUri serviceUrl private =>
      optional is_str speakerUri && optional is_str serviceUrl && is_bool private
      && is_ok (To_post_init speakerUri serviceUrl)
  | _ => false
  end.

Definition valid_Parameters (x : value) : bool :=
  match x with
  | VParameters d => distinct (keys d)
  | _ => false
  end.

Definition valid_Event (x : value) : bool :=
  match x with
  | VEvent eventType to reason parameters =>
      is_str eventType && optional valid_To to && optional is_str reason
      && valid_Parameters parameters
  | _ => false
  end.

Definition valid_Envelope (x : value) : bool :=
  match x with
  | VEnvelope conversation sender schema events =>
      valid_Conversation conversation && valid_Sender sender
      && valid_Schema schema && list_of valid_Event events
  | _ => false
  end.

(** [x] is a valid instance of the class [c]. *)
Definition valid (timed : bool) (c : cls) (x : value) : bool :=
  match c with
  | Span => valid_Span timed x
  | Token => valid_Token timed x
  | Feature => valid_Feature timed x
  | DialogEvent => valid_DialogEvent timed x
  | Identification => valid_Identification x
  | SupportedLayers => valid_SupportedLayers x
  | Capability => valid_Capability x
  | Manifest => valid_Manifest x
  | Schema => valid_Schema x
  | Conversant => valid_Conversant x
  | Conversation => valid_Conversation x
  | Sender => valid_Sender x
  | To => valid_To x
  | Event => valid_Event x
  | Envelope => valid_Envelope x
  end.

(** Round-trip fidelity for the instance [x] of [c]: [dict(x)] returns a
    dict from which [c.from_dict] returns [x], whatever the world, which it
    leaves as it was. *)
Definition round_trips (c : cls) (x : value) : Prop :=
  exists d, to_dict x = Ok d /\ forall w, from_dict c (VDict d) w = Ok (x, w).

(** Round-trip fidelity for a class whose [from_dict] has no effect. *)
Definition round_trips_pure (recon : value -> result value) (x : value) : Prop :=
  exists d, to_dict x = Ok d /\ recon (VDict d) = Ok x.

(** ** Canonical projection

    The rules that relate a mapping [m] to the projection of the record
    reconstructed from it. *)

(** The fields of a class, in declaration order. *)
Definition fields (c : cls) : list string :=
  match c with
  | Span => Span_fields
  | Token => Token_fields
  | Feature => Feature_fields
  | DialogEvent => DialogEvent_fields
  | Identification => Identification_fields
  | SupportedLayers => SupportedLayers_fields
  | Capability => Capability_fields
  | Manifest => Manifest_fields
  | Schema => Schema_fields
  | Conversant => Conversant_fields
  | Conversation => Conversation_fields
  | Sender => Sender_fields
  | To => To_fields
  | Event => Event_fields
  | Envelope => Envelope_fields
  end.





End Model.

Abbreviation dict := (list (string * value)).

(** ** Data for the examples *)

(** A world whose clock reads noon of 6 November 2026 and whose UUID
    generator alternates between two UUIDs. *)
Definition example_world : world :=
  mkWorld (fun _ => "2026-11-06T12:00:00") 0
          (fun n => if Nat.even n
                    then "123e4567-e89b-42d3-a456-426614174000"
                    else "7c9e6679-7425-40de-944b-e07fc1f90ae7") 0.

(** A datetime model for the examples: a datetime is identified with the
    text [isoformat] prints for it, and [fromisoformat] reads it back. *)
Definition example_datetime : Datetime :=
  {| datetime := string;
     isoformat := fun t => t;
     fromisoformat := fun s => Some s |}.

(** A span given by offsets only. *)
Definition span_by_offset : value (D:=example_datetime) :=
  VSpan VNone (VStr "PT1S") VNone (VStr "PT2S").


(** One turn of "hello world", with an absolute start and end. *)
Definition example_dialog_event : value (D:=example_datetime) :=
  VDialogEvent (VStr "de:1") (VStr "tag:bot1")
    (VSpan (VStr "2026-11-06T12:00:00") VNone
       (VDatetime (D:=example_datetime) "2026-11-06T12:00:05") VNone)
    (VDict
       [("text",
         VFeature (VStr "text/plain")
           (VList [VToken (VStr "hello world") VNone VNone (VFloat 0.9)
                     (VList [])])
           (VList []) (VStr "en") (VStr "UTF-8") VNone)])
    VNone VNone.

(** The envelope of the end-to-end scenario. *)
Definition example_envelope : value (D:=example_datetime) :=
  VEnvelope
    (VConversation (VStr "conv:1")
       (VList
          [VConversant
             (VIdentification (VStr "tag:bot1") (VStr "https://x/bot1")
                VNone VNone VNone VNone VNone)
             (VDict [])]))
    (VSender (VStr "tag:bot1") (VStr "https://x/bot1"))
    (VSchema (VStr "1.0.0") VNone)
    (VList
       [VEvent (VStr "utterance")
          (VTo (VStr "tag:bot2") VNone (VBool false)) VNone
          (VParameters [("dialogEvent", VDict [("id", VStr "de:1")])])]).



(** * Properties *)

Section Properties.

Context {D : Datetime}.

(** [fromisoformat] reads back what [isoformat] prints. *)
Hypothesis fromisoformat_isoformat :
  forall t : datetime, fromisoformat (isoformat t) = Some t.

(** ** Dictionaries and keyword arguments *)

Lemma dict_get_set_eq (k : string) (v : value) (d : dict) :
  dict_get k (dict_set k v d) = Some v.
Proof.
  induction d as [|[k' v'] d IH]; simpl.
  - now rewrite String.eqb_refl.
  - destruct (String.eqb k k') eqn:E; simpl.
    + now rewrite String.eqb_refl.
    + now rewrite E.
Qed.

Lemma dict_get_set_ne (k k' : string) (v : value) (d : dict) :
  k <> k' -> dict_get k' (dict_set k v d) = dict_get k' d.
Proof.
  intros Hne. induction d as [|[k0 v0] d IH]; simpl.
  - destruct (String.eqb k' k) eqn:E; [|reflexivity].
    apply String.eqb_eq in E. congruence.
  - destruct (String.eqb k k0) eqn:E; simpl.
    + apply String.eqb_eq in E. subst k0.
      destruct (String.eqb k' k) eqn:E'; [|reflexivity].
      apply String.eqb_eq in E'. congruence.
    + now rewrite IH.
Qed.

Lemma keys_dict_set_in (k : string) (v : value) (d : dict) (x : string) :
  In x (keys (dict_set k v d)) <-> x = k \/ In x (keys d).
Proof.
  induction d as [|[k0 v0] d IH]; simpl.
  - intuition.
  - destruct (String.eqb k k0) eqn:E; simpl.
    + apply String.eqb_eq in E. subst. intuition.
    + rewrite IH. intuition.
Qed.



(** An unexpected keyword is a [TypeError]. *)
Lemma check_keywords_raise (fields : list string) (kw : dict) (e : exn) :
  check_keywords fields kw = Raise e -> exists msg, e = TypeError msg.
Proof.
  unfold check_keywords. destruct (find _ _); [|discriminate].
  intros [= <-]. eauto.
Qed.


Lemma given_false (k : string) (kw : dict) :
  given k kw = false -> arg_default kw k VNone = VNone.
Proof.
  unfold given, arg_default. destruct (dict_get k kw) as [v|]; [|reflexivity].
  now destruct v.
Qed.


(** ** Span *)

Ltac unfold_monad :=
  cbv [mbind lift ret raise rbind arg_factory datetime_now_isoformat uuid4] in *.


(** ** Schema *)

(** C5.  A [Schema] is constructed from any keywords that name its fields,
    and a constructed [Schema] has a version other than [None]: the version
    is ["1.0.0"] when the argument is omitted and when it is passed as
    [None], and the argument itself otherwise. *)
Theorem Schema_version_default (kw : dict) :
  (check_keywords Schema_fields kw = Ok tt -> exists s, Schema_init kw = Ok s)
  /\ (forall s, Schema_init kw = Ok s ->
      exists version url,
        s = VSchema version url
        /\ version <> VNone
        /\ (dict_has "version" kw = false -> version = VStr "1.0.0")
        /\ (passed_none "version" kw = true -> version = VStr "1.0.0")
        /\ (given "version" kw = true -> dict_get "version" kw = Some version)).
Proof.
  unfold Schema_init. unfold_monad. split.
  - intros ->. eauto.
  - intros s. destruct (check_keywords Schema_fields kw); [|discriminate].
    intros [= <-]. do 2 eexists. split; [reflexivity|].
    unfold Schema_post_init, arg_default, dict_has, passed_none, given, is_none.
    destruct (dict_get "version" kw) as [v|]; simpl.
    + destruct (is_not_none v) eqn:N; simpl; repeat split;
        try discriminate; try reflexivity.
      now destruct v.
    + repeat split; try discriminate; reflexivity.
Qed.

(** ** Token *)

Lemma between_0_and_1_spec (c : value) :
  is_number c = true ->
  exists b, between_0_and_1 c = Ok b /\ (b = true <-> in_unit_interval c).
Proof.
  destruct c; try discriminate; intros _; simpl; eexists; (split; [reflexivity|]).
  - tauto.
  - rewrite andb_true_iff, !Z.leb_le. tauto.
  - rewrite andb_true_iff, !Qle_bool_iff. tauto.
Qed.

(** C7.  [Token] fails when [value] and [valueUrl] are both given and when
    neither is; with exactly one of them it fails for a confidence that is
    a number outside [0, 1] and succeeds when the confidence is absent or a
    number in [0, 1], the bounds 1.0 and 0.0 included. *)
Theorem Token_construction_rules (kw : dict) :
  check_keywords Token_fields kw = Ok tt ->
  let confidence := arg_default kw "confidence" VNone in
  (given "value" kw = true -> given "valueUrl" kw = true ->
   Token_init kw = Raise (ValueError "Cannot specify both value and valueUrl"))
  /\ (given "value" kw = false -> given "valueUrl" kw = false ->
      Token_init kw = Raise (ValueError "Must specify either value or valueUrl"))
  /\ (xorb (given "value" kw) (given "valueUrl" kw) = true ->
      (is_number confidence = true -> ~ in_unit_interval confidence ->
       Token_init kw = Raise (ValueError "Confidence must be between 0 and 1"))
      /\ (confidence = VNone \/ (is_number confidence = true
                                 /\ in_unit_interval confidence) ->
          Token_init kw
          = Ok (VToken (arg_default kw "value" VNone)
                  (arg_default kw "valueUrl" VNone)
                  (arg_default kw "span" VNone)
                  confidence
                  (arg_default kw "links" (VList []))))
      /\ (confidence = VFloat 1 \/ confidence = VFloat 0 ->
          is_ok (Token_init kw) = true)).
Proof.
  intros Hck confidence. unfold Token_init. unfold_monad. rewrite Hck.
  fold confidence. unfold Token_post_init. unfold_monad.
  assert (forall k, given k kw = is_not_none (arg_default kw k VNone)) as G.
  { intros k. unfold given, arg_default. now destruct (dict_get k kw). }
  rewrite !G. unfold is_none.
  destruct (is_not_none (arg_default kw "value" VNone)),
           (is_not_none (arg_default kw "valueUrl" VNone)); simpl;
    (split; [|split]); try discriminate; try reflexivity; intros _.
  all: assert (is_number confidence = true -> ~ in_unit_interval confidence ->
           (if is_not_none confidence
            then match between_0_and_1 confidence with
                 | Ok inside =>
                     if negb inside
                     then Raise (ValueError "Confidence must be between 0 and 1")
                     else Ok tt
                 | Raise e => Raise e
                 end
            else Ok tt)
           = Raise (ValueError "Confidence must be between 0 and 1")) as Hout;
    [ intros Hn Hni; destruct (between_0_and_1_spec _ Hn) as (b & -> & Hb);
      destruct confidence; try discriminate; simpl;
      (destruct b; [exfalso; apply Hni, Hb; reflexivity|reflexivity]) | ].
  all: assert (confidence = VNone \/ (is_number confidence = true
                                 /\ in_unit_interval confidence) ->
           (if is_not_none confidence
            then match between_0_and_1 confidence with
                 | Ok inside =>
                     if negb inside
                     then Raise (ValueError "Confidence must be between 0 and 1")
                     else Ok tt
                 | Raise e => Raise e
                 end
            else Ok tt) = Ok tt) as Hin;
    [ intros [-> | [Hn Hi]]; [reflexivity|];
      destruct (between_0_and_1_spec _ Hn) as (b & -> & Hb);
      apply Hb in Hi; subst b; simpl; now destruct (is_not_none confidence) | ].
  all: split; [intros Hn Hni; now rewrite (Hout Hn Hni)|].
  all: split; [intros H; now rewrite (Hin H)|].
  all: intros [E|E]; rewrite Hin; try reflexivity; right; rewrite E;
    (split; [reflexivity|]); simpl; split; discriminate.
Qed.

(** ** Sender *)

(** C4 (as amended).  A [Sender] cannot be made without a [speakerUri]
    argument: the constructor and [Sender.from_dict] raise [TypeError] on
    keywords or a mapping that lack the key, and no [Sender] is returned.
    With the key present the constructor stores its value as it is, [None]
    included. *)
Theorem Sender_requires_speakerUri_key (m : dict) :
  (dict_get "speakerUri" m = None ->
   (exists msg, Sender_init m = Raise (TypeError msg))
   /\ (exists msg, Sender_from_dict (VDict m) = Raise (TypeError msg)))
  /\ (forall v, check_keywords Sender_fields m = Ok tt ->
      dict_get "speakerUri" m = Some v ->
      Sender_from_dict (VDict m)
      = Ok (VSender v (arg_default m "serviceUrl" VNone))).
Proof.
  unfold Sender_from_dict, Sender_init, arg_required. simpl. split.
  - intros ->. unfold_monad.
    destruct (check_keywords Sender_fields m) as [[]|e] eqn:E.
    + split; eauto.
    + destruct (check_keywords_raise _ _ _ E) as [msg ->]. split; eauto.
  - intros v -> ->. reflexivity.
Qed.

(** ** To *)

Lemma keys_dict_set_new (k : string) (v : value) (d : dict) :
  dict_get k d = None -> keys (dict_set k v d) = keys d ++ [k].
Proof.
  induction d as [|[k0 v0] d IH]; simpl; [reflexivity|].
  destruct (String.eqb k k0); [discriminate|].
  intros H. simpl. now rewrite IH.
Qed.

Lemma check_keywords_set_field (fields : list string) (k : string) (v : value)
    (kw : dict) :
  In k fields -> dict_get k kw = None ->
  check_keywords fields (dict_set k v kw) = check_keywords fields kw.
Proof.
  intros Hin Hnone. unfold check_keywords.
  rewrite (keys_dict_set_new _ _ _ Hnone).
  induction (keys kw) as [|x l IH]; simpl.
  - assert (existsb (String.eqb k) fields = true) as ->; [|reflexivity].
    apply existsb_exists. exists k. split; [assumption|apply String.eqb_refl].
  - destruct (negb (existsb (String.eqb x) fields)); [reflexivity|exact IH].
Qed.

(** C10.  In the projection of a [To] whose [private] is a Boolean, the key
    [private] is present exactly when the field is [True].  A [To]
    constructed with [private=False] is the [To] constructed without the
    argument, so the two have the same projection. *)
Theorem To_private_projection :
  (forall speakerUri serviceUrl b,
     To_post_init speakerUri serviceUrl = Ok tt ->
     exists d,
       to_dict (VTo speakerUri serviceUrl (VBool b)) = Ok d
       /\ dict_has "private" d = b
       /\ (b = true -> dict_get "private" d = Some (VBool true)))
  /\ (forall kw,
        dict_has "private" kw = false ->
        To_init (dict_set "private" (VBool false) kw) = To_init kw).
Proof.
  split.
  - intros su sv b _. simpl. unfold To_iter. simpl. unfold_monad.
    eexists. split; [reflexivity|].
    destruct (is_not_none su), (is_not_none sv), b; simpl; auto.
    all: split; [reflexivity|discriminate].
  - intros kw H. unfold dict_has in H.
    destruct (dict_get "private" kw) eqn:E; [discriminate|].
    unfold To_init.
    rewrite check_keywords_set_field by (simpl; auto).
    unfold arg_default.
    rewrite !dict_get_set_ne by discriminate.
    now rewrite dict_get_set_eq, E.
Qed.

(** ** Conversation *)

Lemma prefix_append (s t : string) : String.prefix s (s ++ t)%string = true.
Proof.
  induction s as [|c s IH].
  - now destruct t.
  - change (String c s ++ t)%string with (String c (s ++ t)%string).
    simpl. now destruct (Ascii.ascii_dec c c).
Qed.

Lemma append_inj_r (s t1 t2 : string) :
  (s ++ t1)%string = (s ++ t2)%string -> t1 = t2.
Proof.
  induction s as [|c s IH]; intros E.
  - exact E.
  - change (String c (s ++ t1)%string = String c (s ++ t2)%string) in E.
    injection E as E. auto.
Qed.

(** C8.  Two [Conversation]s constructed one after the other without an
    [id] (omitted or [None]) each get an identifier that is a string
    starting with ["conv:"], built from a fresh UUID; the two identifiers
    differ whenever the generator returned two different UUIDs. *)
Theorem Conversation_auto_id (kw1 kw2 : dict) (w : world) :
  check_keywords Conversation_fields kw1 = Ok tt ->
  check_keywords Conversation_fields kw2 = Ok tt ->
  given "id" kw1 = false ->
  given "id" kw2 = false ->
  uuid_src w (uuid_calls w) <> uuid_src w (S (uuid_calls w)) ->
  exists id1 id2 cs1 cs2 w1 w2,
    Conversation_init kw1 w = Ok (VConversation (VStr id1) cs1, w1)
    /\ Conversation_init kw2 w1 = Ok (VConversation (VStr id2) cs2, w2)
    /\ String.prefix "conv:" id1 = true
    /\ String.prefix "conv:" id2 = true
    /\ id1 <> id2.
Proof.
  intros H1 H2 G1 G2 Hne. unfold Conversation_init, Conversation_post_init.
  unfold_monad. rewrite H1, H2.
  rewrite (given_false _ _ G1), (given_false _ _ G2). simpl.
  do 6 eexists. split; [reflexivity|]. split; [reflexivity|].
  split; [apply prefix_append|]. split; [apply prefix_append|].
  intros E. apply Hne. exact (append_inj_r _ _ _ E).
Qed.

(** ** split_kwargs *)

Lemma split_kwargs_defined_lookup (names : list string)
    (kwargs : gmap string value) (k : string) :
  (filter (fun kv : string * value => kv.1 ∈ (list_to_set names : gset string))
     kwargs
   ∪ gset_to_gmap VNone (list_to_set names)) !! k
  = if decide (k ∈ names) then Some (default VNone (kwargs !! k)) else None.
Proof.
  rewrite lookup_union, map_lookup_filter, lookup_gset_to_gmap.
  destruct (decide (k ∈ names)) as [Hin|Hnot].
  - assert (k ∈ (list_to_set names : gset string)) as Hs
      by now apply elem_of_list_to_set.
    destruct (kwargs !! k) as [v|]; simpl.
    + rewrite !option_guard_True by exact Hs. reflexivity.
    + rewrite option_guard_True by exact Hs. reflexivity.
  - assert (k ∉ (list_to_set names : gset string)) as Hs
      by now rewrite elem_of_list_to_set.
    destruct (kwargs !! k) as [v|]; simpl.
    + rewrite !option_guard_False by exact Hs. reflexivity.
    + rewrite option_guard_False by exact Hs. reflexivity.
Qed.

Lemma split_kwargs_undefined_lookup (names : list string)
    (kwargs : gmap string value) (k : string) :
  filter (fun kv : string * value => kv.1 ∉ (list_to_set names : gset string))
    kwargs !! k
  = if decide (k ∈ names) then None else kwargs !! k.
Proof.
  rewrite map_lookup_filter.
  destruct (decide (k ∈ names)) as [Hin|Hnot];
    destruct (kwargs !! k) as [v|]; simpl; try reflexivity.
  - rewrite option_guard_False; [reflexivity|].
    intros H. apply H. now apply elem_of_list_to_set.
  - rewrite option_guard_True; [reflexivity|].
    now rewrite elem_of_list_to_set.
Qed.

(** C9.  [split_kwargs(cls, kwargs)] returns a pair (defined, undefined):
    the keys of [defined] are the field names of [cls], each mapped to its
    value in [kwargs] or to [None] when [kwargs] lacks it; [undefined]
    holds the entries of [kwargs] whose key is no field name, and nothing
    else; and for a class without dataclass fields [defined] is empty and
    [undefined] is [kwargs]. *)
Theorem split_kwargs_spec (dataclass_fields : option (list string))
    (kwargs : gmap string value) :
  let names := default [] dataclass_fields in
  let defined := (split_kwargs dataclass_fields kwargs).1 in
  let undefined := (split_kwargs dataclass_fields kwargs).2 in
  dom defined = list_to_set names
  /\ (forall k, k ∈ names -> defined !! k = Some (default VNone (kwargs !! k)))
  /\ (forall k, undefined !! k = if decide (k ∈ names) then None else kwargs !! k)
  /\ (names = [] -> defined = ∅ /\ undefined = kwargs).
Proof.
  intros names defined undefined.
  assert (forall k, defined !! k
            = if decide (k ∈ names) then Some (default VNone (kwargs !! k))
              else None) as Hdef.
  { intros k. subst defined names. unfold split_kwargs.
    destruct dataclass_fields as [l|]; simpl.
    - apply split_kwargs_defined_lookup.
    - exact (split_kwargs_defined_lookup [] kwargs k). }
  assert (forall k, undefined !! k
            = if decide (k ∈ names) then None else kwargs !! k) as Hundef.
  { intros k. subst undefined names. unfold split_kwargs.
    destruct dataclass_fields as [l|]; simpl.
    - apply split_kwargs_undefined_lookup.
    - exact (split_kwargs_undefined_lookup [] kwargs k). }
  repeat split.
  - apply set_eq. intros k. rewrite elem_of_dom, Hdef, elem_of_list_to_set.
    destruct (decide (k ∈ names)); split; intros H; eauto.
    + now destruct H.
    + contradiction.
  - intros k Hin. rewrite Hdef. now destruct (decide (k ∈ names)).
  - exact Hundef.
  - apply map_eq. intros k. rewrite Hdef, H, lookup_empty.
    destruct (decide (k ∈ [])) as [Hin|]; [|reflexivity].
    now apply elem_of_nil in Hin.
  - apply map_eq. intros k. rewrite Hundef, H.
    destruct (decide (k ∈ [])) as [Hin|]; [|reflexivity].
    now apply elem_of_nil in Hin.
Qed.

(** ** Failure of a reconstruction *)

































(** ** Round trips *)

Ltac split_valid :=
  repeat match goal with
         | H : _ && _ = true |- _ => apply andb_prop in H as [? ?]
         end.

(** A [Span] with a [startTime] round-trips. *)
Lemma Span_round_trips (x : value) :
  valid_Span true x = true -> round_trips Span x.
Proof.
  destruct x; try discriminate. simpl. intros H. split_valid.
  destruct x1; try discriminate; destruct x2; try discriminate;
    destruct x3; try discriminate; destruct x4; try discriminate.
  all: eexists; split; [reflexivity|]; intros w.
  all: vm_compute; rewrite ?fromisoformat_isoformat; reflexivity.
Qed.

Lemma is_not_none_false (v : value) : is_not_none v = false -> v = VNone.
Proof. now destruct v. Qed.

Lemma is_ok_unit (r : result unit) : is_ok r = true -> r = Ok tt.
Proof. destruct r as [[]|]; [reflexivity|discriminate]. Qed.

Lemma optional_some (p : value -> bool) (v : value) :
  optional p v = true -> is_not_none v = true -> p v = true.
Proof. now destruct v. Qed.

Lemma nonempty_false {A : Type} (l : list A) : nonempty l = false -> l = [].
Proof. now destruct l. Qed.

(** Inserting pairs with distinct keys one after the other lists them in
    that order. *)
Lemma dict_set_new (k : string) (v : value) (d : dict) :
  existsb (String.eqb k) (keys d) = false -> dict_set k v d = d ++ [(k, v)].
Proof.
  induction d as [|[k0 v0] d IH]; simpl; [reflexivity|].
  intros H. apply orb_false_elim in H as [E H]. rewrite E. now rewrite IH.
Qed.

Lemma distinct_app_one (l : list string) (k : string) :
  distinct l = true -> existsb (String.eqb k) l = false ->
  distinct (l ++ [k]) = true.
Proof.
  induction l as [|x l IH]; simpl; [reflexivity|].
  intros H E. apply andb_prop in H as [Hx Hl].
  apply orb_false_elim in E as [E1 E2].
  rewrite IH by assumption. rewrite andb_true_r.
  rewrite existsb_app. simpl. rewrite orb_false_r.
  apply negb_true_iff in Hx. rewrite Hx. simpl.
  rewrite String.eqb_sym, E1. reflexivity.
Qed.

Lemma py_dict_distinct (l : list (string * value)) :
  distinct (keys l) = true -> py_dict l = l.
Proof.
  unfold py_dict.
  assert (forall acc,
            distinct (keys acc) = true ->
            forallb (fun k => negb (existsb (String.eqb k) (keys acc))) (keys l)
            = true ->
            distinct (keys l) = true ->
            fold_left (fun d kv => dict_set (fst kv) (snd kv) d) l acc = acc ++ l)
    as G.
  { induction l as [|[k v] l IH]; intros acc Hacc Hfresh Hl; simpl.
    - now rewrite app_nil_r.
    - simpl in Hfresh, Hl. apply andb_prop in Hfresh as [Hk Hfresh].
      apply andb_prop in Hl as [Hkl Hl].
      apply negb_true_iff in Hk. apply negb_true_iff in Hkl.
      rewrite dict_set_new by assumption.
      rewrite IH; [now rewrite <- app_assoc| | |assumption].
      + unfold keys. rewrite map_app. simpl. now apply distinct_app_one.
      + apply forallb_forall. intros x Hx.
        rewrite forallb_forall in Hfresh. specialize (Hfresh x Hx).
        apply negb_true_iff in Hfresh. apply negb_true_iff.
        unfold keys. rewrite map_app, existsb_app. simpl.
        fold (keys acc). rewrite Hfresh. simpl. rewrite orb_false_r.
        destruct (String.eqb x k) eqn:E; [|reflexivity].
        apply String.eqb_eq in E. subst x.
        assert (existsb (String.eqb k) (keys l) = true) as C; [|congruence].
        apply existsb_exists. exists k. split; [exact Hx|apply String.eqb_refl]. }
  intros H. apply (G []); [reflexivity| |exact H].
  apply forallb_forall. reflexivity.
Qed.

(** Items that round-trip one by one round-trip as a list. *)
Lemma round_trip_items {B : Type} (p : value -> bool) (proj : value -> result B)
    (inj : B -> value) (recon : value -> M value) :
  (forall x, p x = true ->
   exists y, proj x = Ok y /\ forall w, recon (inj y) w = Ok (x, w)) ->
  forall l, forallb p l = true ->
  exists ys, mapR proj l = Ok ys
             /\ forall w, mapM recon (map inj ys) w = Ok (l, w).
Proof.
  intros Hx. induction l as [|x l IH]; simpl; intros H.
  - exists []. split; [reflexivity|]. reflexivity.
  - apply andb_prop in H as [H1 H2].
    destruct (Hx _ H1) as (y & Hy & Hr). destruct (IH H2) as (ys & Hys & Hrs).
    exists (y :: ys). rewrite Hy. fold (mapR proj). rewrite Hys. simpl.
    split; [reflexivity|]. intros w. unfold mbind. rewrite Hr.
    fold (mapM recon). now rewrite Hrs.
Qed.

Lemma round_trip_itemsR {B : Type} (p : value -> bool) (proj : value -> result B)
    (inj : B -> value) (recon : value -> result value) :
  (forall x, p x = true -> exists y, proj x = Ok y /\ recon (inj y) = Ok x) ->
  forall l, forallb p l = true ->
  exists ys, mapR proj l = Ok ys /\ mapR recon (map inj ys) = Ok l.
Proof.
  intros Hx. induction l as [|x l IH]; simpl; intros H.
  - exists []. split; reflexivity.
  - apply andb_prop in H as [H1 H2].
    destruct (Hx _ H1) as (y & Hy & Hr). destruct (IH H2) as (ys & Hys & Hrs).
    exists (y :: ys). rewrite Hy. fold (mapR proj). rewrite Hys. simpl.
    split; [reflexivity|]. rewrite Hr. fold (mapR recon). now rewrite Hrs.
Qed.

Ltac rt_compute :=
  cbn -[Span_from_dict Token_from_dict Feature_from_dict
        Identification_from_dict SupportedLayers_from_dict Capability_from_dict
        Schema_from_dict Conversant_from_dict Conversation_from_dict
        Sender_from_dict To_from_dict Event_from_dict
        Span_post_init Token_post_init Feature_post_init DialogEvent_post_init
        To_post_init].

Ltac rt_rewrite :=
  repeat match goal with
         | H : to_dict _ = Ok _ |- _ => rewrite H
         | H : mapR _ _ = Ok _ |- _ => rewrite H
         | H : is_not_none _ = true |- _ => rewrite H
         | H : nonempty _ = true |- _ => rewrite H
         | H : _ = Ok tt |- _ => rewrite H
         | H : forall w : world, _ = Ok (_, w) |- _ => rewrite H
         end.

Ltac rt_go :=
  repeat (progress (rt_compute; unfold_monad; rt_rewrite)).

Ltac post_init_ok :=
  repeat match goal with
         | H : is_ok _ = true |- _ => apply is_ok_unit in H
         end.

(** A [Token] whose span, if any, has a [startTime] round-trips. *)
Lemma Token_round_trips (x : value) :
  valid_Token true x = true -> round_trips Token x.
Proof.
  destruct x; try discriminate. simpl. intros H. split_valid. post_init_ok.
  rename x1 into value_, x2 into valueUrl, x3 into span, x4 into confidence,
    x5 into links.
  destruct (is_not_none span) eqn:Hs;
    [ match goal with H : optional _ span = true |- _ =>
        destruct (Span_round_trips _ (optional_some _ _ H Hs)) as (dsp & Hd & Hf);
        simpl from_dict in Hf end
    | apply is_not_none_false in Hs; subst span ].
  all: destruct (is_not_none value_) eqn:Hv;
      [|apply is_not_none_false in Hv; subst value_].
  all: destruct valueUrl; try discriminate.
  all: destruct confidence; try discriminate.
  all: destruct links as [| | | | | |[|lk ls]| | | | | | | | | | | | | | | | |];
    try discriminate.
  all: (eexists; split;
        [ cbn [to_dict]; unfold Token_iter; rt_go; reflexivity
        | intros w; unfold from_dict, Token_from_dict, update_if_presentM,
            Token_init; rt_go; reflexivity ]).
Qed.

Lemma tokens_round_trip (v : value) :
  list_of (valid_Token true) v = true ->
  exists y, dicts_of to_dict v = Ok y
            /\ forall w, list_fromM Token_from_dict y w = Ok (v, w).
Proof.
  destruct v; try discriminate. simpl. intros H.
  destruct (round_trip_items _ to_dict VDict Token_from_dict Token_round_trips l H)
    as (ds & Hd & Hf).
  exists (VList (map VDict ds)). rewrite Hd. split; [reflexivity|].
  intros w. unfold list_fromM. rt_go. reflexivity.
Qed.

Lemma alternates_round_trip (ls : list value) :
  forallb (list_of (valid_Token true)) ls = true ->
  exists ys, mapR (dicts_of to_dict) ls = Ok ys
             /\ forall w, mapM (list_fromM Token_from_dict) ys w = Ok (ls, w).
Proof.
  intros H.
  destruct (round_trip_items _ (dicts_of to_dict) (fun y => y)
              (list_fromM Token_from_dict) tokens_round_trip ls H)
    as (ys & Hd & Hf).
  rewrite map_id in Hf. eauto.
Qed.

(** A [Feature] whose tokens round-trip round-trips. *)
Lemma Feature_round_trips (x : value) :
  valid_Feature true x = true -> round_trips Feature x.
Proof.
  destruct x; try discriminate. simpl. intros H. split_valid. post_init_ok.
  rename x1 into mimeType, x2 into tokens, x3 into alternates, x4 into lang,
    x5 into encoding, x6 into tokenSchema.
  match goal with H : list_of _ tokens = true |- _ =>
    destruct (tokens_round_trip _ H) as (toks & Ht & Hft) end.
  destruct alternates as [| | | | | |ls| | | | | | | | | | | | | | | | |];
    try discriminate.
  match goal with H : list_of _ (VList ls) = true |- _ =>
    destruct (alternates_round_trip _ H) as (alts & Ha & Hfa) end.
  destruct mimeType; try discriminate.
  destruct (nonempty ls) eqn:Hne; [|apply nonempty_false in Hne; subst ls].
  all: destruct lang; try discriminate.
  all: destruct encoding; try discriminate.
  all: destruct tokenSchema; try discriminate.
  all: (eexists; split;
        [ cbn [to_dict]; unfold Feature_iter; rewrite Ht; rt_go; reflexivity
        | intros w; unfold from_dict, Feature_from_dict, update_if_presentM,
            Feature_init; rt_go; reflexivity ]).
Qed.

Lemma features_round_trip (fs : dict) :
  distinct (keys fs) = true ->
  forallb (fun nf => valid_Feature true (snd nf)) fs = true ->
  exists fs',
    mapR (fun nf => d <- to_dict (snd nf) ;; Ok (fst nf, VDict d)) fs = Ok fs'
    /\ keys fs' = keys fs
    /\ forall w,
         mapM (fun nf => f <~ Feature_from_dict (snd nf) ;; ret (fst nf, f)) fs' w
         = Ok (fs, w).
Proof.
  intros _. induction fs as [|[name f] fs IH]; simpl; intros H.
  - exists []. repeat split.
  - apply andb_prop in H as [H1 H2].
    destruct (Feature_round_trips _ H1) as (d & Hd & Hf). simpl in Hf.
    destruct (IH H2) as (fs' & Hfs & Hk & Hr).
    exists ((name, VDict d) :: fs'). rewrite Hd. simpl.
    match goal with |- context [?F fs] =>
      match type of Hfs with ?G fs = _ => change (F fs) with (G fs) end end.
    rewrite Hfs. simpl. split; [reflexivity|]. split; [now rewrite Hk|].
    intros w. unfold_monad. rewrite Hf.
    match goal with |- context [?F fs' w] =>
      match type of Hr with forall w, ?G fs' w = _ =>
        change (F fs' w) with (G fs' w) end end.
    now rewrite Hr.
Qed.

(** A [DialogEvent] whose spans have a [startTime] round-trips. *)
Lemma DialogEvent_round_trips (x : value) :
  valid_DialogEvent true x = true -> round_trips DialogEvent x.
Proof.
  destruct x; try discriminate. simpl. intros H. split_valid. post_init_ok.
  rename x1 into id, x2 into speakerUri, x3 into span, x4 into features,
    x5 into previousId, x6 into context.
  match goal with H : valid_Span true span = true |- _ =>
    destruct (Span_round_trips _ H) as (dsp & Hd & Hf); simpl from_dict in Hf end.
  destruct features as [| | | | | | |fs| | | | | | | | | | | | | | | |];
    try discriminate.
  match goal with H : dict_of _ (VDict fs) = true |- _ =>
    simpl in H; apply andb_prop in H as [Hdist Hfs];
    destruct (features_round_trip _ Hdist Hfs) as (fs' & Hp & Hk & Hr) end.
  assert (py_dict fs' = fs') as Hpy by (apply py_dict_distinct; now rewrite Hk).
  assert (py_dict fs = fs) as Hpy' by now apply py_dict_distinct.
  destruct id; try discriminate. destruct speakerUri; try discriminate.
  destruct previousId; try discriminate.
  all: destruct context; try discriminate.
  all: (eexists; split;
        [ cbn [to_dict]; unfold DialogEvent_iter; rt_go; rewrite Hpy; reflexivity
        | intros w; unfold from_dict, DialogEvent_from_dict, update_if_presentM,
            features_from, DialogEvent_init; rt_go; rewrite ?Hpy'; rt_go;
          reflexivity ]).
Qed.

Ltac rt_rewrite_pure :=
  repeat match goal with
         | H : to_dict _ = Ok _ |- _ => rewrite H
         | H : mapR _ _ = Ok _ |- _ => rewrite H
         | H : is_not_none _ = true |- _ => rewrite H
         | H : nonempty _ = true |- _ => rewrite H
         | H : py_dict _ = _ |- _ => rewrite H
         | H : _ (VDict _) = Ok _ |- _ => rewrite H
         | H : forall w : world, _ = Ok (_, w) |- _ => rewrite H
         end.

Ltac rt_pure :=
  repeat (progress (rt_compute; unfold_monad; rt_rewrite_pure)).

Lemma Identification_round_trips (x : value) :
  valid_Identification x = true -> round_trips_pure Identification_from_dict x.
Proof.
  destruct x; try discriminate. simpl. intros H. split_valid.
  destruct x1; try discriminate. destruct x2; try discriminate.
  destruct x3; try discriminate.
  all: destruct x4; try discriminate.
  all: destruct x5; try discriminate.
  all: destruct x6; try discriminate.
  all: destruct x7; try discriminate.
  all: eexists; split; reflexivity.
Qed.

Lemma SupportedLayers_round_trips (x : value) :
  valid_SupportedLayers x = true ->
  round_trips_pure SupportedLayers_from_dict x.
Proof.
  destruct x; try discriminate. intros _. eexists; split; reflexivity.
Qed.

Lemma Schema_round_trips (x : value) :
  valid_Schema x = true -> round_trips_pure Schema_from_dict x.
Proof.
  destruct x; try discriminate. simpl. intros H. split_valid.
  destruct x1; try discriminate. destruct x2; try discriminate.
  all: eexists; split; reflexivity.
Qed.

Lemma Sender_round_trips (x : value) :
  valid_Sender x = true -> round_trips_pure Sender_from_dict x.
Proof.
  destruct x; try discriminate. simpl. intros H. split_valid.
  destruct x1; try discriminate. destruct x2; try discriminate.
  all: eexists; split; reflexivity.
Qed.

Lemma To_round_trips (x : value) :
  valid_To x = true -> round_trips_pure To_from_dict x.
Proof.
  destruct x; try discriminate. simpl. intros H. split_valid.
  destruct x1; try discriminate; destruct x2; try discriminate;
    destruct x3 as [|[]| | | | | | | | | | | | | | | | | | | | | |];
    try discriminate.
  all: eexists; split; reflexivity.
Qed.

Lemma Capability_round_trips (x : value) :
  valid_Capability x = true -> round_trips_pure Capability_from_dict x.
Proof.
  destruct x; try discriminate. simpl. intros H. split_valid.
  rename x1 into keyphrases, x2 into descriptions, x3 into languages,
    x4 into supportedLayers.
  match goal with H : valid_SupportedLayers _ = true |- _ =>
    assert (is_not_none supportedLayers = true) as Hsl
      by (destruct supportedLayers; try discriminate; reflexivity);
    destruct (SupportedLayers_round_trips _ H) as (d & Hd & Hf) end.
  destruct languages; try discriminate.
  all: (eexists; split;
        [ cbn [to_dict]; unfold Capability_iter; rt_pure; reflexivity
        | unfold Capability_from_dict, update_if_present, Capability_init,
            Capability_post_init, is_none;
          rt_pure; reflexivity ]).
Qed.

Lemma capabilities_round_trip (v : value) :
  list_of valid_Capability v = true ->
  exists y, dicts_of to_dict v = Ok y /\ list_from Capability_from_dict y = Ok v.
Proof.
  destruct v; try discriminate. simpl. intros H.
  destruct (round_trip_itemsR _ to_dict VDict Capability_from_dict
              Capability_round_trips l H) as (ds & Hd & Hf).
  exists (VList (map VDict ds)). rewrite Hd. split; [reflexivity|].
  unfold list_from. rt_pure. reflexivity.
Qed.

Lemma Manifest_round_trips (x : value) :
  valid_Manifest x = true -> round_trips_pure Manifest_from_dict x.
Proof.
  destruct x; try discriminate. simpl. intros H. split_valid.
  rename x1 into identification, x2 into capabilities.
  match goal with H : valid_Identification _ = true |- _ =>
    destruct (Identification_round_trips _ H) as (d & Hd & Hf) end.
  match goal with H : list_of _ capabilities = true |- _ =>
    destruct (capabilities_round_trip _ H) as (caps & Hc & Hfc) end.
  eexists; split;
    [ cbn [to_dict]; unfold Manifest_iter; rewrite Hc; rt_pure; reflexivity
    | unfold Manifest_from_dict, update_if_present, Manifest_init;
      rt_pure; rewrite Hfc; rt_pure; reflexivity ].
Qed.

Lemma Conversant_round_trips (x : value) :
  valid_Conversant x = true -> round_trips_pure Conversant_from_dict x.
Proof.
  destruct x; try discriminate. simpl. intros H. split_valid.
  rename x1 into identification, x2 into persistentState.
  match goal with H : valid_Identification _ = true |- _ =>
    assert (is_not_none identification = true) as Hid
      by (destruct identification; try discriminate; reflexivity);
    destruct (Identification_round_trips _ H) as (d & Hd & Hf) end.
  destruct persistentState as [| | | | | | |ps| | | | | | | | | | | | | | | |];
    try discriminate.
  destruct (nonempty ps) eqn:Hne; [|apply nonempty_false in Hne; subst ps].
  all: (eexists; split;
        [ cbn [to_dict]; unfold Conversant_iter; rt_pure; reflexivity
        | unfold Conversant_from_dict, update_if_present, Conversant_init,
            Conversant_post_init, is_none;
          rt_pure; reflexivity ]).
Qed.

Lemma conversants_round_trip (l : list value) :
  forallb valid_Conversant l = true ->
  exists ds, mapR to_dict l = Ok ds
             /\ mapR Conversant_from_dict (map VDict ds) = Ok l.
Proof.
  apply (round_trip_itemsR _ to_dict VDict Conversant_from_dict
           Conversant_round_trips).
Qed.

Lemma Conversation_round_trips (x : value) :
  valid_Conversation x = true -> round_trips Conversation x.
Proof.
  destruct x; try discriminate. simpl. intros H. split_valid.
  rename x1 into id, x2 into conversants.
  destruct conversants as [| | | | | |cs| | | | | | | | | | | | | | | | |];
    try discriminate.
  match goal with H : list_of _ (VList cs) = true |- _ =>
    destruct (conversants_round_trip _ H) as (ds & Hd & Hf) end.
  destruct id; try discriminate.
  destruct (nonempty cs) eqn:Hne; [|apply nonempty_false in Hne; subst cs].
  all: (eexists; split;
        [ cbn [to_dict]; unfold Conversation_iter, dicts_of; rt_pure; reflexivity
        | intros w; unfold from_dict, Conversation_from_dict, update_if_present,
            list_from, Conversation_init, Conversation_post_init;
          rt_pure; reflexivity ]).
Qed.

Lemma Event_round_trips (x : value) :
  valid_Event x = true -> round_trips_pure Event_from_dict x.
Proof.
  destruct x; try discriminate. simpl. intros H. split_valid.
  rename x1 into eventType, x2 into to_, x3 into reason, x4 into parameters.
  destruct parameters; try discriminate.
  match goal with H : valid_Parameters _ = true |- _ =>
    simpl in H; pose proof (py_dict_distinct _ H) as Hpy end.
  destruct eventType; try discriminate. destruct reason; try discriminate.
  all: (destruct (is_not_none to_) eqn:Hto;
    [ match goal with H : optional valid_To _ = true |- _ =>
        destruct (To_round_trips _ (optional_some _ _ H Hto)) as (dto & Hd & Hf) end
    | apply is_not_none_false in Hto; subst to_ ]).
  all: (destruct (nonempty _data) eqn:Hne;
        [|apply nonempty_false in Hne; subst _data]).
  all: (eexists; split;
        [ cbn [to_dict]; unfold Event_iter; rt_pure; reflexivity
        | unfold Event_from_dict, update_if_present, Event_init,
            Event_post_init, Parameters_init;
          rt_pure; reflexivity ]).
Qed.

Lemma events_round_trip (l : list value) :
  forallb valid_Event l = true ->
  exists ds, mapR to_dict l = Ok ds /\ mapR Event_from_dict (map VDict ds) = Ok l.
Proof.
  apply (round_trip_itemsR _ to_dict VDict Event_from_dict Event_round_trips).
Qed.

Lemma Envelope_round_trips (x : value) :
  valid_Envelope x = true -> round_trips Envelope x.
Proof.
  destruct x; try discriminate. simpl. intros H. split_valid.
  rename x1 into conversation, x2 into sender, x3 into schema, x4 into events.
  match goal with H : valid_Conversation _ = true |- _ =>
    destruct (Conversation_round_trips _ H) as (dc & Hdc & Hfc);
    simpl from_dict in Hfc end.
  match goal with H : valid_Sender _ = true |- _ =>
    destruct (Sender_round_trips _ H) as (ds & Hds & Hfs) end.
  match goal with H : valid_Schema _ = true |- _ =>
    destruct (Schema_round_trips _ H) as (dsch & Hdsch & Hfsch) end.
  destruct events as [| | | | | |es| | | | | | | | | | | | | | | | |];
    try discriminate.
  match goal with H : list_of _ (VList es) = true |- _ =>
    destruct (events_round_trip _ H) as (des & Hdes & Hfes) end.
  destruct (nonempty es) eqn:Hne; [|apply nonempty_false in Hne; subst es].
  all: (eexists; split;
        [ cbn [to_dict]; unfold Envelope_iter, dicts_of; rt_pure; reflexivity
        | intros w; unfold from_dict, Envelope_from_dict, update_if_presentM,
            update_if_present, list_from, Envelope_init;
          rt_pure; reflexivity ]).
Qed.

Lemma round_trips_of_pure (c : cls) (recon : value -> result value) (x : value) :
  (forall data, from_dict c data = lift (recon data)) ->
  round_trips_pure recon x -> round_trips c x.
Proof.
  intros E (d & Hd & Hf). exists d. split; [exact Hd|].
  intros w. rewrite E. unfold lift. now rewrite Hf.
Qed.

(** Round-trip fidelity.  For every record class [c] and every valid
    instance [x] of [c] in which each [Span] has a [startTime],
    [c.from_dict(dict(x))] returns [x]. *)
Theorem round_trip_fidelity (c : cls) (x : value) :
  valid true c x = true -> round_trips c x.
Proof.
  destruct c; simpl; intros H.
  - now apply Span_round_trips.
  - now apply Token_round_trips.
  - now apply Feature_round_trips.
  - now apply DialogEvent_round_trips.
  - apply (round_trips_of_pure _ Identification_from_dict); [reflexivity|].
    now apply Identification_round_trips.
  - apply (round_trips_of_pure _ SupportedLayers_from_dict); [reflexivity|].
    now apply SupportedLayers_round_trips.
  - apply (round_trips_of_pure _ Capability_from_dict); [reflexivity|].
    now apply Capability_round_trips.
  - apply (round_trips_of_pure _ Manifest_from_dict); [reflexivity|].
    now apply Manifest_round_trips.
  - apply (round_trips_of_pure _ Schema_from_dict); [reflexivity|].
    now apply Schema_round_trips.
  - apply (round_trips_of_pure _ Conversant_from_dict); [reflexivity|].
    now apply Conversant_round_trips.
  - now apply Conversation_round_trips.
  - apply (round_trips_of_pure _ Sender_from_dict); [reflexivity|].
    now apply Sender_round_trips.
  - apply (round_trips_of_pure _ To_from_dict); [reflexivity|].
    now apply To_round_trips.
  - apply (round_trips_of_pure _ Event_from_dict); [reflexivity|].
    now apply Event_round_trips.
  - now apply Envelope_round_trips.
Qed.

(** C1 at its failing inputs.  A valid [Span] whose start is given by
    [startOffset], [startTime] being [None], does not round-trip:
    [dict(x)] has no [startTime] key, so [Span.from_dict] takes the start
    from the clock and then rejects the span for having both start forms. *)
Theorem Span_start_offset_does_not_round_trip (x : value) (w : world) :
  valid_Span false x = true ->
  (exists startOffset endTime endOffset,
     x = VSpan VNone startOffset endTime endOffset) ->
  exists d,
    to_dict x = Ok d
    /\ dict_has "startTime" d = false
    /\ from_dict Span (VDict d) w
       = Raise (ValueError "Cannot specify both startTime and startOffset").
Proof.
  intros H (so & et & eo & ->). simpl in H. split_valid.
  destruct so; try discriminate; destruct et; try discriminate;
    destruct eo; try discriminate.
  all: eexists; split; [reflexivity|]; split; [reflexivity|].
  all: vm_compute; rewrite ?fromisoformat_isoformat; reflexivity.
Qed.

(** ** Canonical projection *)

Lemma mbind_ok_inv {A B : Type} (m : M A) (k : A -> M B) (w : world)
    (r : B * world) :
  mbind m k w = Ok r -> exists a w1, m w = Ok (a, w1) /\ k a w1 = Ok r.
Proof.
  unfold mbind. destruct (m w) as [[a w1]|]; [eauto|discriminate].
Qed.

Lemma rbind_ok_inv {A B : Type} (r : result A) (k : A -> result B) (b : B) :
  rbind r k = Ok b -> exists a, r = Ok a /\ k a = Ok b.
Proof. unfold rbind. destruct r; [eauto|discriminate]. Qed.











































End Properties.

(** * The theorems at the examples *)

Lemma example_fromisoformat_isoformat :
  forall t : @datetime example_datetime,
    fromisoformat (isoformat t) = Some t.
Proof. reflexivity. Qed.

(** The span given by offsets only does not round-trip. *)
Lemma Span_start_offset_witness :
  exists d,
    to_dict span_by_offset = Ok d
    /\ dict_has "startTime" d = false
    /\ from_dict Span (VDict d) example_world
       = Raise (ValueError "Cannot specify both startTime and startOffset").
Proof.
  apply (Span_start_offset_does_not_round_trip example_fromisoformat_isoformat).
  - reflexivity.
  - do 3 eexists. reflexivity.
Defined.

(** The example turn and the example envelope round-trip. *)
Lemma round_trip_fidelity_witness :
  round_trips DialogEvent example_dialog_event.
Proof.
  apply (round_trip_fidelity example_fromisoformat_isoformat). reflexivity.
Defined.



(** C4, as the claim states it.  [Sender(speakerUri=None)] returns a
    [Sender]. *)
Lemma Sender_null_speakerUri_counterexample :
  Sender_init (D:=example_datetime) [("speakerUri", VNone)]
  = Ok (VSender VNone VNone).
Proof. reflexivity. Qed.


(** A token with a value and the confidence 1.0 is constructed. *)
Lemma Token_construction_rules_witness :
  is_ok (Token_init (D:=example_datetime)
           [("value", VStr "hello"); ("confidence", VFloat 1)]) = true.
Proof.
  apply (Token_construction_rules (D:=example_datetime)
           [("value", VStr "hello"); ("confidence", VFloat 1)] eq_refl).
  - reflexivity.
  - left. reflexivity.
Defined.

(** Two conversations constructed without an [id] in the example world. *)
Lemma Conversation_auto_id_witness :
  exists id1 id2 cs1 cs2 w1 w2,
    Conversation_init (D:=example_datetime) [] example_world
    = Ok (VConversation (VStr id1) cs1, w1)
    /\ Conversation_init (D:=example_datetime) [("id", VNone)] w1
       = Ok (VConversation (VStr id2) cs2, w2)
    /\ String.prefix "conv:" id1 = true
    /\ String.prefix "conv:" id2 = true
    /\ id1 <> id2.
Proof.
  apply (Conversation_auto_id (D:=example_datetime) [] [("id", VNone)]
           example_world); try reflexivity.
  discriminate.
Defined.


